(** * Invoice pricing service: a shallow embedding of [src/invoice_service.py]

    The Python module defines two dataclasses ([LineItem], [Invoice]) and a
    class [InvoiceService] whose method [compute_total] validates an invoice
    and prices it.  Every method is embedded below under its source name.

    Modelling conventions.
    - The methods compute on Python [float]s.  They are written once, over a
      number type [F] with the operations the source uses (class [Num]), and
      read in two ways: [binary64] is the arithmetic of the program itself
      (IEEE 754 double precision, with its rounding, infinities and NaN, and
      the [OverflowError] of converting an [int] that is too large);
      [exact] is arithmetic on the rationals, used for the properties that
      rest on comparisons and on the order of the branches only.
    - A Python [int] is a [Z].
    - A Python [str] is a Rocq [string], each character being one code point
      below 256.
    - A [dict] literal is a [gmap string _]; [d.get(k, v)] and [k in d] are
      lookups in it.
    - A call ends in an [outcome]: the value it returns or the exception it
      raises. *)

From Stdlib Require Import Ascii String ZArith QArith Qminmax Lqa.
From Stdlib Require PrimFloat SpecFloat FloatOps.
From stdpp Require Import gmap strings list fin_maps.

(** ** Numbers *)

(** The operations of the source on floats. *)
Class Num (F : Type) := {
  (** the value of a numeric literal, given as the decimal it is written as *)
  num_lit : Q → F;
  (** [float(n)] for an [int]: the implicit conversion of [x * n];
      [None] stands for [OverflowError] *)
  num_of_int : Z → option F;
  num_add : F → F → F;
  num_sub : F → F → F;
  num_mul : F → F → F;
  (** [a < b] *)
  num_lt : F → F → bool
}.

(** Arithmetic on the rationals: nothing is rounded and every integer
    converts. *)
#[export] Instance exact : Num Q := {|
  num_lit q := q;
  num_of_int n := Some (inject_Z n);
  num_add := Qplus;
  num_sub := Qminus;
  num_mul := Qmult;
  num_lt a b := negb (Qle_bool b a)
|}.

(** The integer [n] rounded to the nearest double, ties to even; an integer
    beyond the range of the doubles becomes an infinity. *)
Definition Z_to_sf (n : Z) : SpecFloat.spec_float :=
  SpecFloat.binary_normalize FloatOps.prec FloatOps.emax n 0 false.

(** [float(n)]: CPython raises [OverflowError] where rounding leaves the
    range of the doubles. *)
Definition float_of_int (n : Z) : option PrimFloat.float :=
  match Z_to_sf n with
  | SpecFloat.S754_infinity _ => None
  | sf => Some (FloatOps.SF2Prim sf)
  end.

(** A decimal literal [n/d] is read as the double nearest to it; for the
    literals of the source, whose [n] and [d] are doubles themselves, that is
    the correctly rounded quotient. *)
Definition float_lit (q : Q) : PrimFloat.float :=
  PrimFloat.div (FloatOps.SF2Prim (Z_to_sf (Qnum q)))
                (FloatOps.SF2Prim (Z_to_sf (Zpos (Qden q)))).

(** IEEE 754 double precision, the arithmetic of CPython's [float]. *)
#[export] Instance binary64 : Num PrimFloat.float := {|
  num_lit := float_lit;
  num_of_int := float_of_int;
  num_add := PrimFloat.add;
  num_sub := PrimFloat.sub;
  num_mul := PrimFloat.mul;
  num_lt := PrimFloat.ltb
|}.

(** The rational a double stands for; 0 for the infinities and NaN. *)
Definition float_value (x : PrimFloat.float) : Q :=
  match FloatOps.Prim2SF x with
  | SpecFloat.S754_finite s m e =>
      (inject_Z (if s then Zneg m else Zpos m)
       * (if (0 <=? e)%Z then inject_Z (2 ^ e) else / inject_Z (2 ^ (- e))))%Q
  | _ => 0%Q
  end.

(** ** Exceptions and outcomes *)

(** The exceptions a call of [compute_total] can end in: the [ValueError] it
    raises itself, the [OverflowError] of converting a quantity to [float],
    and the [AttributeError] of reading a field of [None]. *)
Inductive exception :=
  | ValueError (message : string)
  | OverflowError (message : string)
  | AttributeError (message : string).

(** What a call ends in: the value it returns, or a raised exception. *)
Inductive outcome (A : Type) :=
  | Return (result : A)
  | Raise (e : exception).

Arguments Return {A} result.
Arguments Raise {A} e.

(** Sequencing: an exception ends the computation. *)
#[export] Instance outcome_bind : MBind outcome := λ A B f m,
  match m with
  | Return a => f a
  | Raise e => Raise e
  end.

(** ** Python built-ins used by the service *)

Module Py.

(** [str.isspace] on one character, for the code points below 256:
    TAB, LF, VT, FF, CR, FS, GS, RS, US, SPACE, NEL and NBSP. *)
Definition isspace (c : ascii) : bool :=
  let n := N_of_ascii c in
  ((9 <=? n) && (n <=? 13) || (28 <=? n) && (n <=? 32)
   || (n =? 133) || (n =? 160))%N.

(** [s.lstrip()]: drop the leading whitespace. *)
Fixpoint lstrip (s : string) : string :=
  match s with
  | EmptyString => EmptyString
  | String c s' => if isspace c then lstrip s' else s
  end.

(** [s.rstrip()]: drop the trailing whitespace.  A character is kept when it
    is not a space or when something is kept to its right. *)
Fixpoint rstrip (s : string) : string :=
  match s with
  | EmptyString => EmptyString
  | String c s' =>
      match rstrip s' with
      | EmptyString => if isspace c then EmptyString else String c EmptyString
      | r => String c r
      end
  end.

(** [s.strip()]: CPython advances a left index over the leading whitespace,
    then moves a right index back over the trailing whitespace. *)
Definition strip (s : string) : string := rstrip (lstrip s).

(** [sep.join(l)]. *)
Fixpoint join (sep : string) (l : list string) : string :=
  match l with
  | [] => ""
  | [x] => x
  | x :: l' => x +:+ sep +:+ join sep l'
  end.

(** [a < b] on floats, as a boolean. *)
Definition ltb {F} `{Num F} (a b : F) : bool := num_lt a b.

(** [a > b] is [b < a]. *)
Definition gtb {F} `{Num F} (a b : F) : bool := ltb b a.

(** [max(a, b)]: the first argument unless the second is strictly greater. *)
Definition max {F} `{Num F} (a b : F) : F := if gtb b a then b else a.

(** [x * n] for a float [x] and an [int] [n]: [n] is converted first. *)
Definition float_of_int {F} `{Num F} (n : Z) : outcome F :=
  match num_of_int n with
  | Some x => Return x
  | None => Raise (OverflowError "int too large to convert to float")
  end.

(** Truth value of a string ([not s] is its negation): non-empty. *)
Definition truthy_str (s : string) : bool :=
  match s with EmptyString => false | _ => true end.

(** Truth value of a list: non-empty. *)
Definition truthy_list {A} (l : list A) : bool :=
  match l with [] => false | _ => true end.

(** [x in (a, b, ...)] for a tuple of strings: [==] against each in turn. *)
Definition in_tuple (x : string) (t : list string) : bool :=
  existsb (String.eqb x) t.

End Py.

(** ** Data model *)

Record LineItem (F : Type) := {
  sku : string;
  category : string;
  unit_price : F;
  qty : Z;
  fragile : bool
}.

Arguments sku {F} _.
Arguments category {F} _.
Arguments unit_price {F} _.
Arguments qty {F} _.
Arguments fragile {F} _.

Record Invoice (F : Type) := {
  invoice_id : string;
  customer_id : string;
  country : string;
  membership : string;
  coupon : option string;
  items : list (LineItem F)
}.

Arguments invoice_id {F} _.
Arguments customer_id {F} _.
Arguments country {F} _.
Arguments membership {F} _.
Arguments coupon {F} _.
Arguments items {F} _.

(** ** The service *)

Module InvoiceService.

Section Methods.

Context {F : Type} `{Num F}.

(** [self._coupon_rate], set by [__init__]. *)
Definition _coupon_rate : gmap string F :=
  {[ "WELCOME10" := num_lit 0.10; "VIP20" := num_lit 0.20;
     "STUDENT5" := num_lit 0.05 ]}.

(** Body of the loop of [_validate] for one item; [problems.append(x)]
    is [problems ++ [x]]. *)
Definition _validate_item (problems : list string) (it : LineItem F) : list string :=
  let problems :=
    if negb (Py.truthy_str (sku it))
    then problems ++ ["Item sku is missing"] else problems in
  let problems :=
    if (qty it <=? 0)%Z
    then problems ++ ["Invalid qty for " +:+ sku it] else problems in
  let problems :=
    if Py.ltb (unit_price it) (num_lit 0)
    then problems ++ ["Invalid price for " +:+ sku it] else problems in
  let problems :=
    if negb (Py.in_tuple (category it) ["book"; "food"; "electronics"; "other"])
    then problems ++ ["Unknown category for " +:+ sku it] else problems in
  problems.

(** [inv] may be [None]. *)
Definition _validate (inv : option (Invoice F)) : list string :=
  let problems := [] in
  match inv with
  | None => problems ++ ["Invoice is missing"]
  | Some inv =>
      let problems :=
        if negb (Py.truthy_str (invoice_id inv))
        then problems ++ ["Missing invoice_id"] else problems in
      let problems :=
        if negb (Py.truthy_str (customer_id inv))
        then problems ++ ["Missing customer_id"] else problems in
      let problems :=
        if negb (Py.truthy_list (items inv))
        then problems ++ ["Invoice must contain items"] else problems in
      fold_left _validate_item (items inv) problems
  end.

(** Body of the loop of [_calculate_subtotal_and_fragile_fee]; the state is
    the pair [(subtotal, fragile_fee)].  Each product with [it.qty] converts
    the quantity to [float] and may raise. *)
Definition _subtotal_step (acc : F * F) (it : LineItem F) : outcome (F * F) :=
  let '(subtotal, fragile_fee) := acc in
  q ← Py.float_of_int (qty it);
  let line := num_mul (unit_price it) q in
  let subtotal := num_add subtotal line in
  if fragile it then
    q ← Py.float_of_int (qty it);
    Return (subtotal, num_add fragile_fee (num_mul (num_lit 5.0) q))
  else Return (subtotal, fragile_fee).

(** The loop [for it in items], from the state [acc]. *)
Fixpoint _subtotal_loop (items : list (LineItem F)) (acc : F * F) : outcome (F * F) :=
  match items with
  | [] => Return acc
  | it :: items' => acc' ← _subtotal_step acc it; _subtotal_loop items' acc'
  end.

Definition _calculate_subtotal_and_fragile_fee (items : list (LineItem F)) : outcome (F * F) :=
  _subtotal_loop items (num_lit 0.0, num_lit 0.0).

Definition shipping_rates : gmap string (F * F) :=
  {[ "TH" := (num_lit 500, num_lit 60); "JP" := (num_lit 4000, num_lit 600);
     "US" := (num_lit 100, num_lit 15) ]}.

Definition _calculate_shipping (country : string) (subtotal : F) : F :=
  match shipping_rates !! country with
  | Some (threshold, base_fee) =>
      if Py.ltb subtotal threshold then base_fee else num_lit 0
  | None =>
      if Py.ltb subtotal (num_lit 200) then num_lit 25 else num_lit 0
  end.

Definition _calculate_base_discount (membership : string) (subtotal : F) : F :=
  if String.eqb membership "gold" then num_mul subtotal (num_lit 0.03)
  else if String.eqb membership "platinum" then num_mul subtotal (num_lit 0.05)
  else if Py.gtb subtotal (num_lit 3000) then num_lit 20
  else num_lit 0.0.

Definition _apply_coupon (coupon : option string) (subtotal : F) : F * list string :=
  let warnings : list string := [] in
  let coupon_discount := num_lit 0.0 in
  match coupon with
  | Some c =>
      if negb (String.eqb (Py.strip c) "") then
        let code := Py.strip c in
        match _coupon_rate !! code with
        | Some rate => (num_mul subtotal rate, warnings)
        | None => (coupon_discount, warnings ++ ["Unknown coupon"])
        end
      else (coupon_discount, warnings)
  | None => (coupon_discount, warnings)
  end.

Definition tax_rates : gmap string F :=
  {[ "TH" := num_lit 0.07; "JP" := num_lit 0.10; "US" := num_lit 0.08 ]}.

Definition _calculate_tax (country : string) (subtotal discount : F) : F :=
  let rate := default (num_lit 0.05) (tax_rates !! country) in
  num_mul (num_sub subtotal discount) rate.

Definition compute_total (inv : option (Invoice F)) : outcome (F * list string) :=
  let warnings : list string := [] in
  let problems := _validate inv in
  if Py.truthy_list problems then Raise (ValueError (Py.join "; " problems))
  else
    match inv with
    | None => Raise (AttributeError "'NoneType' object has no attribute 'items'")
    | Some inv =>
        '(subtotal, fragile_fee) ←
          _calculate_subtotal_and_fragile_fee (items inv);
        let shipping := _calculate_shipping (country inv) subtotal in
        let discount := _calculate_base_discount (membership inv) subtotal in
        let '(coupon_discount, coupon_warnings) :=
          _apply_coupon (coupon inv) subtotal in
        let warnings := warnings ++ coupon_warnings in
        let discount := num_add discount coupon_discount in
        let tax := _calculate_tax (country inv) subtotal discount in
        let total :=
          num_sub (num_add (num_add (num_add subtotal shipping) fragile_fee) tax)
                  discount in
        let total := Py.max total (num_lit 0.0) in
        let warnings :=
          if Py.gtb subtotal (num_lit 10000)
             && negb (Py.in_tuple (membership inv) ["gold"; "platinum"])
          then warnings ++ ["Consider membership upgrade"] else warnings in
        Return (total, warnings)
    end.

End Methods.

End InvoiceService.

Import InvoiceService.

(** ** Vocabulary of the specification *)

(** A string made of whitespace only; the empty string is one. *)
Fixpoint whitespace_only (s : string) : bool :=
  match s with
  | EmptyString => true
  | String c s' => Py.isspace c && whitespace_only s'
  end.

(** [frag] occurs in [s]. *)
Definition contains (s frag : string) : Prop :=
  ∃ pre post, s = pre +:+ frag +:+ post.


(** The value a call returned; [d] if it raised. *)
Definition returned {A} (d : A) (o : outcome A) : A :=
  match o with
  | Return a => a
  | Raise _ => d
  end.

(** The tax rate as the specification words it: the configured country rate,
    or 0.05 for any other country. *)
Definition tax_rate_spec {F} `{Num F} (country : string) : F :=
  if decide (country = "TH") then num_lit 0.07
  else if decide (country = "JP") then num_lit 0.10
  else if decide (country = "US") then num_lit 0.08
  else num_lit 0.05.

(** Clamping at zero as the specification words it: 0.0 for an amount below
    0.0, the amount itself otherwise. *)
Definition clamp_at_zero {F} `{Num F} (x : F) : F :=
  if num_lt x (num_lit 0.0) then num_lit 0.0 else x.


(** Value of one line, the quantity being given as a float. *)
Definition line_value {F} `{Num F} (p : LineItem F * F) : F :=
  num_mul (unit_price p.1) p.2.

(** Handling fee of one fragile line, the quantity being given as a float. *)
Definition line_fragile_fee {F} `{Num F} (p : LineItem F * F) : F :=
  num_mul (num_lit 5.0) p.2.


(** The problems of the invoice header, in the order they are reported. *)
Definition header_problems {F} (inv : Invoice F) : list string :=
  (if decide (invoice_id inv = "") then ["Missing invoice_id"] else [])
  ++ (if decide (customer_id inv = "") then ["Missing customer_id"] else [])
  ++ (if decide (length (items inv) = 0%nat)
      then ["Invoice must contain items"] else []).

(** The problems of one item, in the order they are reported. *)
Definition item_problems {F} `{Num F} (it : LineItem F) : list string :=
  (if decide (sku it = "") then ["Item sku is missing"] else [])
  ++ (if decide (qty it ≤ 0)%Z then ["Invalid qty for " +:+ sku it] else [])
  ++ (if num_lt (unit_price it) (num_lit 0)
      then ["Invalid price for " +:+ sku it] else [])
  ++ (if decide (category it ∈ ["book"; "food"; "electronics"; "other"])
      then [] else ["Unknown category for " +:+ sku it]).

(** The conditions on one item that the validator checks; the price test is
    the source's: the price is not below 0. *)
Definition item_ok {F} `{Num F} (it : LineItem F) : Prop :=
  sku it ≠ "" ∧ (0 < qty it)%Z ∧ num_lt (unit_price it) (num_lit 0) = false
  ∧ category it ∈ ["book"; "food"; "electronics"; "other"].

(** The values of the local variables of [compute_total] once
    [_calculate_subtotal_and_fragile_fee] has returned, named after them. *)
Definition subtotal_of {F} `{Num F} (inv : Invoice F) : F :=
  (returned (num_lit 0.0, num_lit 0.0)
     (_calculate_subtotal_and_fragile_fee (items inv))).1.

Definition fragile_fee_of {F} `{Num F} (inv : Invoice F) : F :=
  (returned (num_lit 0.0, num_lit 0.0)
     (_calculate_subtotal_and_fragile_fee (items inv))).2.

Definition shipping_of {F} `{Num F} (inv : Invoice F) : F :=
  _calculate_shipping (country inv) (subtotal_of inv).

Definition base_discount_of {F} `{Num F} (inv : Invoice F) : F :=
  _calculate_base_discount (membership inv) (subtotal_of inv).

Definition coupon_discount_of {F} `{Num F} (inv : Invoice F) : F :=
  (_apply_coupon (coupon inv) (subtotal_of inv)).1.

Definition coupon_warnings_of {F} `{Num F} (inv : Invoice F) : list string :=
  (_apply_coupon (coupon inv) (subtotal_of inv)).2.

Definition discount_of {F} `{Num F} (inv : Invoice F) : F :=
  num_add (base_discount_of inv) (coupon_discount_of inv).

Definition tax_of {F} `{Num F} (inv : Invoice F) : F :=
  _calculate_tax (country inv) (subtotal_of inv) (discount_of inv).

(** The sum that [compute_total] clamps. *)
Definition unclamped_total_of {F} `{Num F} (inv : Invoice F) : F :=
  num_sub (num_add (num_add (num_add (subtotal_of inv) (shipping_of inv))
                            (fragile_fee_of inv)) (tax_of inv))
          (discount_of inv).

(** What the pricing reads of an item: its price, quantity and fragility. *)
Definition pricing {F} (it : LineItem F) : F * Z * bool :=
  (unit_price it, qty it, fragile it).

(** The same invoice with the coupon left out. *)
Definition without_coupon {F} (inv : Invoice F) : Invoice F :=
  {| invoice_id := invoice_id inv; customer_id := customer_id inv;
     country := country inv; membership := membership inv;
     coupon := None; items := items inv |}.

(** An invoice with one item. *)
Definition single_item_invoice {F} (iid cid ctry mship : string)
    (cpn : option string) (it : LineItem F) : Invoice F :=
  {| invoice_id := iid; customer_id := cid; country := ctry;
     membership := mship; coupon := cpn; items := [it] |}.


(** An invoice whose only item has no sku, a zero quantity and a category
    outside the fixed set. *)
Definition broken_item {F} `{Num F} : LineItem F :=
  {| sku := ""; category := "toy"; unit_price := num_lit 1; qty := 0;
     fragile := false |}.

Definition broken_invoice {F} `{Num F} : Invoice F :=
  {| invoice_id := "INV-7"; customer_id := "CUST-7"; country := "TH";
     membership := "none"; coupon := None; items := [broken_item] |}.

(** A large order of a non-member, with a coupon code that does not exist. *)
Definition large_invoice {F} `{Num F} : Invoice F :=
  {| invoice_id := "INV-4"; customer_id := "CUST-4"; country := "JP";
     membership := "none"; coupon := Some "SPRING";
     items := [ {| sku := "TV"; category := "electronics";
                   unit_price := num_lit 6000; qty := 2; fragile := false |} ] |}.

(** A valid order of a gold member with a padded coupon code. *)
Definition gold_invoice {F} `{Num F} : Invoice F :=
  {| invoice_id := "INV-9"; customer_id := "CUST-9"; country := "TH";
     membership := "gold"; coupon := Some "  VIP20 ";
     items := [ {| sku := "B1"; category := "book"; unit_price := num_lit 250;
                   qty := 3; fragile := false |};
                {| sku := "V1"; category := "other"; unit_price := num_lit 40;
                   qty := 5; fragile := true |} ] |}.

(** The same order as [gold_invoice] under other identifiers, skus and
    categories. *)
Definition gold_invoice_relabelled {F} `{Num F} : Invoice F :=
  {| invoice_id := "X"; customer_id := "Y"; country := "TH";
     membership := "gold"; coupon := Some "  VIP20 ";
     items := [ {| sku := "p"; category := "food"; unit_price := num_lit 250;
                   qty := 3; fragile := false |};
                {| sku := "q"; category := "electronics";
                   unit_price := num_lit 40; qty := 5; fragile := true |} ] |}.


(** A valid invoice of a gold member whose subtotal overflows to infinity:
    ten units at 1e308. *)
Definition overflowing_invoice : Invoice PrimFloat.float :=
  single_item_invoice "INV-14" "CUST-14" "US" "gold" None
    {| sku := "A"; category := "book";
       unit_price := float_lit (inject_Z (10 ^ 308)); qty := 10;
       fragile := false |}.


(** The smallest positive double, 2^-1074 (written 5e-324 in Python). *)
Definition tiny : PrimFloat.float :=
  FloatOps.SF2Prim (SpecFloat.S754_finite false 1 (-1074)).

(** ** The Python built-ins *)

Section PyFacts.

Open Scope Q_scope.

Lemma ltb_true (a b : Q) : Py.ltb a b = true ↔ a < b.
Proof.
  unfold Py.ltb. cbn [num_lt exact].
  rewrite negb_true_iff, <- not_true_iff_false, Qle_bool_iff.
  split; [apply Qnot_le_lt | apply Qlt_not_le].
Qed.

Lemma ltb_false (a b : Q) : Py.ltb a b = false ↔ b <= a.
Proof.
  unfold Py.ltb. cbn [num_lt exact]. by rewrite negb_false_iff, Qle_bool_iff.
Qed.

Lemma ltb_reflect (a b : Q) : reflect (a < b) (Py.ltb a b).
Proof.
  destruct (Py.ltb a b) eqn:E; constructor.
  - by apply ltb_true.
  - apply ltb_false in E. by apply Qle_not_lt.
Qed.

(** Python's [max(x, 0.0)] is the clamp of the specification, whatever the
    arithmetic. *)
Lemma max_zero_clamp {F} `{Num F} (x : F) :
  Py.max x (num_lit 0.0) = clamp_at_zero x.
Proof. reflexivity. Qed.

Lemma truthy_str_false (s : string) : Py.truthy_str s = false ↔ s = "".
Proof. by destruct s. Qed.

Lemma truthy_list_false {A} (l : list A) : Py.truthy_list l = false ↔ l = [].
Proof. by destruct l. Qed.

Lemma in_tuple_true (x : string) (t : list string) :
  Py.in_tuple x t = true ↔ x ∈ t.
Proof.
  unfold Py.in_tuple. rewrite existsb_exists. setoid_rewrite String.eqb_eq.
  setoid_rewrite <- list_elem_of_In.
  split; [by intros (y & Hy & ->) | by exists x].
Qed.

Lemma in_tuple_false (x : string) (t : list string) :
  Py.in_tuple x t = false ↔ x ∉ t.
Proof. by rewrite <- in_tuple_true, not_true_iff_false. Qed.


End PyFacts.

(** ** Trimming *)

Section Strip.

(** [String.append] is kept folded by [simpl]; these are its equations. *)
Lemma append_nil (s : string) : "" +:+ s = s.
Proof. reflexivity. Qed.

Lemma append_cons (c : ascii) (s t : string) :
  String c s +:+ t = String c (s +:+ t).
Proof. reflexivity. Qed.

Lemma append_nil_r (s : string) : s +:+ "" = s.
Proof. induction s as [|c s IH]; [done | by rewrite append_cons, IH]. Qed.

Lemma append_assoc (s t u : string) : (s +:+ t) +:+ u = s +:+ t +:+ u.
Proof. induction s as [|c s IH]; [done | by rewrite !append_cons, IH]. Qed.

Lemma whitespace_only_app (s t : string) :
  whitespace_only (s +:+ t) = whitespace_only s && whitespace_only t.
Proof.
  induction s as [|c s IH]; [done |].
  rewrite append_cons. simpl. by rewrite IH, andb_assoc.
Qed.

(** [lstrip] removes a whitespace prefix and leaves no leading space. *)
Lemma lstrip_spec (s : string) :
  ∃ l, s = l +:+ Py.lstrip s ∧ whitespace_only l = true
       ∧ ∀ c r, Py.lstrip s = String c r → Py.isspace c = false.
Proof.
  induction s as [|c s (l & Hs & Hl & Hc)]; simpl.
  - by exists "".
  - destruct (Py.isspace c) eqn:E.
    + exists (String c l). rewrite append_cons. simpl. rewrite E, Hl.
      by rewrite <- Hs.
    + exists "". repeat split. by intros ? ? [= <- _].
Qed.

(** [rstrip] removes a whitespace suffix and leaves no trailing space. *)
Lemma rstrip_spec (s : string) :
  ∃ r, s = Py.rstrip s +:+ r ∧ whitespace_only r = true
       ∧ ∀ l c, Py.rstrip s = l +:+ String c "" → Py.isspace c = false.
Proof.
  induction s as [|c s (r & Hs & Hr & Hc)]; simpl.
  - exists "". repeat split. by intros [|??] ?.
  - destruct (Py.rstrip s) as [|c' s'] eqn:E.
    + rewrite append_nil in Hs. subst r. destruct (Py.isspace c) eqn:Ec.
      * exists (String c s). rewrite append_nil. simpl. by rewrite Ec, Hr.
      * exists s. rewrite append_cons, append_nil.
        repeat split; [done |].
        intros [|? [|??]] ? [=]; by subst.
    + exists r. rewrite append_cons, <- Hs. repeat split; [done |].
      intros [|c0 l] c1; [by intros [= _ <-] |].
      rewrite append_cons. intros [= _ Hl]. by apply (Hc l c1).
Qed.

Lemma lstrip_empty (s : string) : Py.lstrip s = "" ↔ whitespace_only s = true.
Proof.
  induction s as [|c s IH]; simpl; [done |].
  destruct (Py.isspace c); simpl; [done | by split].
Qed.

Lemma rstrip_empty (s : string) : Py.rstrip s = "" ↔ whitespace_only s = true.
Proof.
  induction s as [|c s IH]; simpl; [done |].
  destruct (Py.rstrip s) eqn:E.
  - destruct (Py.isspace c); simpl; [by rewrite <- IH | by split].
  - split; [done |]. rewrite andb_true_iff. intros [_ H]. by apply IH in H.
Qed.

Lemma rstrip_lstrip_empty (s : string) :
  Py.rstrip (Py.lstrip s) = "" ↔ Py.lstrip s = "".
Proof.
  rewrite rstrip_empty. split; [| by intros ->].
  destruct (lstrip_spec s) as (_ & _ & _ & Hc).
  destruct (Py.lstrip s) as [|c r]; [done |]. simpl.
  by rewrite (Hc c r eq_refl).
Qed.

(** A string trims to the empty string exactly when it is blank. *)
Lemma strip_empty (s : string) : Py.strip s = "" ↔ whitespace_only s = true.
Proof. unfold Py.strip. by rewrite rstrip_lstrip_empty, lstrip_empty. Qed.

(** [strip] cuts a whitespace prefix and a whitespace suffix, and what is
    left neither starts nor ends with whitespace. *)
Lemma strip_spec (s : string) :
  ∃ l r, s = l +:+ Py.strip s +:+ r
         ∧ whitespace_only l = true ∧ whitespace_only r = true
         ∧ (∀ c t, Py.strip s = String c t → Py.isspace c = false)
         ∧ (∀ t c, Py.strip s = t +:+ String c "" → Py.isspace c = false).
Proof.
  unfold Py.strip.
  destruct (lstrip_spec s) as (l & Hl & Wl & Cl).
  destruct (rstrip_spec (Py.lstrip s)) as (r & Hr & Wr & Cr).
  exists l, r. repeat split; [congruence | done | done | | done].
  intros c t E. rewrite E, append_cons in Hr. by apply (Cl c (t +:+ r)).
Qed.

End Strip.

(** ** Joining and searching *)

Section Join.

Lemma contains_refl (s : string) : contains s s.
Proof. exists "", "". by rewrite append_nil, append_nil_r. Qed.

Lemma contains_app_l (s t frag : string) : contains s frag → contains (s +:+ t) frag.
Proof.
  intros (pre & post & ->). exists pre, (post +:+ t).
  by rewrite !append_assoc.
Qed.

Lemma contains_app_r (s t frag : string) : contains t frag → contains (s +:+ t) frag.
Proof.
  intros (pre & post & ->). exists (s +:+ pre), post.
  by rewrite !append_assoc.
Qed.

Lemma join_cons (sep x y : string) (l : list string) :
  Py.join sep (x :: y :: l) = x +:+ sep +:+ Py.join sep (y :: l).
Proof. reflexivity. Qed.

(** Every joined string occurs in the result of [join]. *)
Lemma join_contains (sep p : string) (l : list string) :
  p ∈ l → contains (Py.join sep l) p.
Proof.
  induction l as [|x [|y l] IH]; intros Hp.
  - by apply elem_of_nil in Hp.
  - apply list_elem_of_singleton in Hp as ->. apply contains_refl.
  - rewrite join_cons. apply elem_of_cons in Hp as [-> | Hp].
    + apply contains_app_l, contains_refl.
    + by apply contains_app_r, contains_app_r, IH.
Qed.

End Join.


(** ** The validator reports every problem *)

Section Validate.

Context {F : Type} `{Num F}.

Lemma _validate_item_spec (problems : list string) (it : LineItem F) :
  _validate_item problems it = problems ++ item_problems it.
Proof.
  unfold _validate_item, item_problems, Py.ltb.
  destruct (decide (sku it = "")) as [Hs|Hs];
    [ rewrite (proj2 (truthy_str_false _) Hs)
    | rewrite (proj1 (not_false_iff_true _)
                 (λ E, Hs (proj1 (truthy_str_false _) E))) ];
  cbn [negb];
  (destruct (Z.leb_spec (qty it) 0), (decide (qty it ≤ 0)%Z); try lia);
  destruct (num_lt (unit_price it) (num_lit 0));
  (destruct (decide (category it ∈ ["book"; "food"; "electronics"; "other"]))
     as [Hc|Hc];
   [ rewrite (proj2 (in_tuple_true _ _) Hc)
   | rewrite (proj2 (in_tuple_false _ _) Hc) ]);
  cbn [negb]; rewrite <- ?app_assoc, ?app_nil_r; reflexivity.
Qed.

Lemma fold_validate_item (its : list (LineItem F)) (problems : list string) :
  fold_left _validate_item its problems = problems ++ flat_map item_problems its.
Proof.
  revert problems. induction its as [|it its IH]; intros problems; simpl.
  - by rewrite app_nil_r.
  - by rewrite IH, _validate_item_spec, <- app_assoc.
Qed.

(** The problems of an invoice are those of its header followed by those of
    each item in turn: nothing is dropped and nothing cuts the list short. *)
Lemma _validate_spec (inv : Invoice F) :
  _validate (Some inv) = header_problems inv ++ flat_map item_problems (items inv).
Proof.
  unfold _validate, header_problems. rewrite fold_validate_item. f_equal.
  destruct (invoice_id inv), (customer_id inv), (items inv); reflexivity.
Qed.

Lemma item_problems_nil (it : LineItem F) : item_problems it = [] ↔ item_ok it.
Proof.
  unfold item_problems, item_ok.
  destruct (decide (sku it = "")), (decide (qty it ≤ 0)%Z),
    (num_lt (unit_price it) (num_lit 0)), (decide (category it ∈ _));
    simpl; split; try done; try (intros (? & ? & ? & ?); (done || lia)).
  intros _. repeat split; (done || lia).
Qed.

Lemma flat_map_nil {A B} (f : A → list B) (l : list A) :
  flat_map f l = [] ↔ Forall (λ x, f x = []) l.
Proof.
  induction l as [|x l IH]; simpl; [by split |].
  rewrite Forall_cons, <- IH. split; [by intros [? ?]%app_eq_nil |].
  by intros [-> ->].
Qed.

Lemma header_problems_nil (inv : Invoice F) :
  header_problems inv = []
  ↔ invoice_id inv ≠ "" ∧ customer_id inv ≠ "" ∧ items inv ≠ [].
Proof.
  unfold header_problems.
  destruct (decide (invoice_id inv = "")), (decide (customer_id inv = "")),
    (items inv); simpl; split; try done; by intros (? & ? & ?).
Qed.

(** X1: the validator accepts an invoice exactly when both identifiers are
    non-empty, there is at least one item, and every item has a non-empty
    sku, a positive quantity, a price that is not below 0 (the test of the
    source, [unit_price < 0], being false) and a category of the fixed
    set. *)
Theorem validate_accepts_iff (inv : Invoice F) :
  _validate (Some inv) = []
  ↔ invoice_id inv ≠ "" ∧ customer_id inv ≠ "" ∧ items inv ≠ []
    ∧ ∀ it, it ∈ items inv → item_ok it.
Proof.
  rewrite _validate_spec. split.
  - intros [Hh Hi]%app_eq_nil. apply header_problems_nil in Hh.
    apply flat_map_nil in Hi. rewrite Forall_forall in Hi.
    destruct Hh as (? & ? & ?). do 3 (split; [done |]).
    intros it Hit. by apply item_problems_nil, Hi.
  - intros (H1 & H2 & H3 & Hi).
    rewrite (proj2 (header_problems_nil inv)) by done. simpl.
    apply flat_map_nil, Forall_forall. intros it Hit.
    by apply item_problems_nil, Hi.
Qed.

Lemma item_problem_not_header (it : LineItem F) (p : string) :
  p ∈ item_problems it →
  p ≠ "Missing invoice_id" ∧ p ≠ "Missing customer_id"
  ∧ p ≠ "Invoice must contain items".
Proof.
  unfold item_problems. rewrite !elem_of_app. intros Hp.
  assert (∃ r, p = String "I" (String "t" r)
               ∨ p = String "I" (String "n" (String "v" (String "a" r)))
               ∨ p = String "U" r) as [r Hr].
  { destruct Hp as [Hp | [Hp | [Hp | Hp]]];
      [ destruct (decide _) | destruct (decide _) | destruct (num_lt _ _)
      | destruct (decide _) ];
      try (by apply elem_of_nil in Hp);
      apply list_elem_of_singleton in Hp as ->; eexists;
      rewrite ?append_cons; eauto. }
  destruct Hr as [-> | [-> | ->]]; repeat split; discriminate.
Qed.

Lemma header_problem_in (inv : Invoice F) :
  ("Missing invoice_id" ∈ header_problems inv ↔ invoice_id inv = "")
  ∧ ("Missing customer_id" ∈ header_problems inv ↔ customer_id inv = "")
  ∧ ("Invoice must contain items" ∈ header_problems inv ↔ items inv = []).
Proof.
  unfold header_problems.
  destruct (decide (invoice_id inv = "")), (decide (customer_id inv = "")),
    (items inv); simpl;
    rewrite ?elem_of_cons, ?elem_of_nil; intuition congruence.
Qed.

(** X2: each of the three header problems is reported exactly for its own
    defect: "Missing invoice_id" for an empty invoice id, "Missing
    customer_id" for an empty customer id, "Invoice must contain items" for
    an empty item list; no item, whatever its sku, produces one of them. *)
Theorem header_problem_iff (inv : Invoice F) :
  ("Missing invoice_id" ∈ _validate (Some inv) ↔ invoice_id inv = "")
  ∧ ("Missing customer_id" ∈ _validate (Some inv) ↔ customer_id inv = "")
  ∧ ("Invoice must contain items" ∈ _validate (Some inv) ↔ items inv = []).
Proof.
  rewrite _validate_spec.
  assert (∀ p, p = "Missing invoice_id" ∨ p = "Missing customer_id"
               ∨ p = "Invoice must contain items" →
               p ∈ header_problems inv ++ flat_map item_problems (items inv)
               ↔ p ∈ header_problems inv) as Hin.
  { intros p Hp. rewrite elem_of_app. split; [| by left].
    intros [Hh | Hi]; [done |].
    apply list_elem_of_In, in_flat_map in Hi as (it & _ & Hi).
    apply list_elem_of_In, item_problem_not_header in Hi. tauto. }
  rewrite !Hin by tauto. apply header_problem_in.
Qed.

(** A valid invoice has only valid items. *)
Lemma valid_items (inv : Invoice F) (it : LineItem F) :
  _validate (Some inv) = [] → it ∈ items inv → item_ok it.
Proof.
  rewrite _validate_spec. intros [_ Hi]%app_eq_nil Hit.
  apply flat_map_nil in Hi. rewrite Forall_forall in Hi.
  by apply item_problems_nil, Hi.
Qed.

End Validate.

(** ** The subtotal loop *)

Section Subtotal.

Context {F : Type} `{Num F}.

Lemma _subtotal_step_Some (acc : F * F) (it : LineItem F) (q : F) :
  num_of_int (qty it) = Some q →
  _subtotal_step acc it
  = Return (num_add acc.1 (line_value (it, q)),
            if fragile it then num_add acc.2 (line_fragile_fee (it, q))
            else acc.2).
Proof.
  intros Hq. unfold _subtotal_step, Py.float_of_int. destruct acc as [s f].
  rewrite Hq. cbn [mbind outcome_bind]. by destruct (fragile it).
Qed.

Lemma _subtotal_step_None (acc : F * F) (it : LineItem F) :
  num_of_int (F:=F) (qty it) = None →
  _subtotal_step acc it
  = Raise (OverflowError "int too large to convert to float").
Proof.
  intros Hq. unfold _subtotal_step, Py.float_of_int. destruct acc as [s f].
  by rewrite Hq.
Qed.


(** A quantity that does not convert ends the loop in [OverflowError]. *)
Lemma _subtotal_loop_raises (its : list (LineItem F)) (acc : F * F) :
  Exists (λ it, num_of_int (F:=F) (qty it) = None) its →
  _subtotal_loop its acc
  = Raise (OverflowError "int too large to convert to float").
Proof.
  revert acc. induction its as [|it its IH]; intros acc Hex.
  - by apply Exists_nil in Hex.
  - cbn [_subtotal_loop].
    destruct (num_of_int (F:=F) (qty it)) as [q|] eqn:Hq.
    + rewrite (_subtotal_step_Some acc it q Hq). cbn [mbind outcome_bind].
      apply IH. apply Exists_cons in Hex as [Hex | Hex]; [congruence | done].
    + by rewrite (_subtotal_step_None acc it Hq).
Qed.

(** Either every quantity converts or one does not. *)
Lemma quantities_convert_or_not (its : list (LineItem F)) :
  (∃ qs, Forall2 (λ it q, num_of_int (qty it) = Some q) its qs)
  ∨ Exists (λ it, num_of_int (F:=F) (qty it) = None) its.
Proof.
  induction its as [|it its [[qs IH] | IH]].
  - left. exists []. constructor.
  - destruct (num_of_int (F:=F) (qty it)) as [q|] eqn:Hq.
    + left. exists (q :: qs). by constructor.
    + right. by apply Exists_cons_hd.
  - right. by apply Exists_cons_tl.
Qed.

Lemma _calculate_returns_convertible (its : list (LineItem F)) (r : F * F) :
  _calculate_subtotal_and_fragile_fee its = Return r →
  ∃ qs, Forall2 (λ it q, num_of_int (qty it) = Some q) its qs.
Proof.
  intros E. destruct (quantities_convert_or_not its) as [|Hex]; [done |].
  unfold _calculate_subtotal_and_fragile_fee in E.
  by rewrite (_subtotal_loop_raises its _ Hex) in E.
Qed.

End Subtotal.

(** ** How [compute_total] ends *)

Section Ends.

Context {F : Type} `{Num F}.

Lemma compute_total_invalid (inv : option (Invoice F)) :
  _validate inv ≠ [] →
  compute_total inv = Raise (ValueError (Py.join "; " (_validate inv))).
Proof.
  unfold compute_total. intros Hv.
  destruct (_validate inv); [done | reflexivity].
Qed.

Lemma _validate_None : _validate (F:=F) None = ["Invoice is missing"].
Proof. reflexivity. Qed.

(** What [compute_total] does with a valid invoice: it ends as
    [_calculate_subtotal_and_fragile_fee] does, and when that returns, the
    result is made of the values of the local variables. *)
Lemma compute_total_Some (inv : Invoice F) :
  _validate (Some inv) = [] →
  compute_total (Some inv)
  = (_ ← _calculate_subtotal_and_fragile_fee (items inv);
     Return
       (Py.max (unclamped_total_of inv) (num_lit 0.0),
        coupon_warnings_of inv
        ++ (if Py.gtb (subtotal_of inv) (num_lit 10000)
               && negb (Py.in_tuple (membership inv) ["gold"; "platinum"])
            then ["Consider membership upgrade"] else []))).
Proof.
  intros Hv. unfold compute_total. rewrite Hv. cbn [Py.truthy_list].
  unfold unclamped_total_of, tax_of, discount_of, shipping_of,
    base_discount_of, coupon_discount_of, coupon_warnings_of, fragile_fee_of,
    subtotal_of.
  destruct (_calculate_subtotal_and_fragile_fee (items inv))
    as [[subtotal fee]|e]; [| done].
  cbn [mbind outcome_bind returned fst snd].
  destruct (_apply_coupon (coupon inv) subtotal) as [cd cw].
  cbn [fst snd app]. destruct (_ && _); [reflexivity | by rewrite app_nil_r].
Qed.

(** A returned pair comes from a valid invoice whose quantities all convert,
    and is made of the values of the local variables. *)
Lemma compute_total_Return (inv : Invoice F) (total : F) (warnings : list string) :
  compute_total (Some inv) = Return (total, warnings) →
  _validate (Some inv) = []
  ∧ (∃ r, _calculate_subtotal_and_fragile_fee (items inv) = Return r)
  ∧ total = clamp_at_zero (unclamped_total_of inv)
  ∧ warnings
    = coupon_warnings_of inv
      ++ (if Py.gtb (subtotal_of inv) (num_lit 10000)
             && negb (Py.in_tuple (membership inv) ["gold"; "platinum"])
          then ["Consider membership upgrade"] else []).
Proof.
  intros E.
  assert (_validate (Some inv) = []) as Hv.
  { destruct (_validate (Some inv)) eqn:Hv; [done |].
    rewrite compute_total_invalid in E by (by rewrite Hv). done. }
  rewrite (compute_total_Some inv Hv) in E.
  destruct (_calculate_subtotal_and_fragile_fee (items inv)) as [r|e]; [| done].
  cbn [mbind outcome_bind] in E. rewrite max_zero_clamp in E.
  injection E as <- <-. eauto.
Qed.

End Ends.

(** ** Validation failure and the other ways to end *)

Section Failure.

Context {F : Type} `{Num F}.




End Failure.


(** ** The total *)

Section Total.

Lemma float_zero_literals : float_lit 0.0 = float_lit 0.
Proof. vm_compute. reflexivity. Qed.

Lemma float_zero_not_below_zero :
  PrimFloat.ltb (float_lit 0) (float_lit 0) = false.
Proof. vm_compute. reflexivity. Qed.

(** C2, amended: whenever [compute_total] returns, the total is the sum
    subtotal + shipping + fragile_fee + tax - discount clamped at 0 (0 when
    the sum is below 0, the sum itself otherwise), the discount being the
    base discount plus the coupon discount; so the total is never below 0.
    All of it is floating-point arithmetic: a sum that is NaN stays NaN. *)
Theorem total_is_clamped_sum
    (inv : Invoice PrimFloat.float) (total : PrimFloat.float)
    (warnings : list string) :
  compute_total (Some inv) = Return (total, warnings) →
  total
  = clamp_at_zero
      (num_sub (num_add (num_add (num_add (subtotal_of inv) (shipping_of inv))
                                 (fragile_fee_of inv)) (tax_of inv))
               (discount_of inv))
  ∧ discount_of inv = num_add (base_discount_of inv) (coupon_discount_of inv)
  ∧ PrimFloat.ltb total (float_lit 0) = false.
Proof.
  intros E. apply compute_total_Return in E as (_ & _ & -> & _).
  fold (unclamped_total_of inv). unfold clamp_at_zero.
  cbn [num_lt num_lit binary64]. rewrite float_zero_literals.
  destruct (PrimFloat.ltb (unclamped_total_of inv) (float_lit 0)) eqn:Hlt.
  - repeat split; apply float_zero_not_below_zero.
  - by repeat split.
Qed.

Lemma total_is_clamped_sum_witness :
  float_lit 13178
  = clamp_at_zero
      (num_sub (num_add (num_add (num_add (subtotal_of large_invoice)
                                          (shipping_of large_invoice))
                                 (fragile_fee_of large_invoice))
                        (tax_of large_invoice))
               (discount_of large_invoice))
  ∧ discount_of large_invoice
    = num_add (base_discount_of large_invoice)
              (coupon_discount_of large_invoice)
  ∧ PrimFloat.ltb (float_lit 13178) (float_lit 0) = false.
Proof.
  apply (total_is_clamped_sum large_invoice (float_lit 13178)
           ["Unknown coupon"; "Consider membership upgrade"]).
  vm_compute. reflexivity.
Defined.

(** Against C2 as the specification words it: ten units at 1e308 for a gold
    member pass validation; the subtotal overflows to infinity, the tax is
    NaN, and the returned total is NaN, for which [0 <= total] is false. *)
Lemma nan_total_on_valid_invoice :
  _validate (Some overflowing_invoice) = []
  ∧ compute_total (Some overflowing_invoice) = Return (PrimFloat.nan, [])
  ∧ PrimFloat.leb (float_lit 0) PrimFloat.nan = false.
Proof. repeat split; vm_compute; reflexivity. Qed.

End Total.

(** ** Tax *)

Section Tax.

Lemma tax_rate_lookup {F} `{Num F} (country : string) :
  default (num_lit 0.05) (tax_rates !! country) = tax_rate_spec country.
Proof.
  unfold tax_rate_spec, tax_rates.
  repeat case_decide; by simplify_map_eq.
Qed.

Lemma _calculate_tax_spec {F} `{Num F} (c : string) (subtotal discount : F) :
  _calculate_tax c subtotal discount
  = num_mul (num_sub subtotal discount) (tax_rate_spec c).
Proof. unfold _calculate_tax. by rewrite tax_rate_lookup. Qed.

(** C3, amended: in any arithmetic, for every country [c], subtotal and
    total discount, the tax is (subtotal - discount) * rate, the rate being
    0.07 for TH, 0.10 for JP, 0.08 for US and 0.05 for any other country;
    the base is not clamped, so a discount above the subtotal can make the
    tax negative (subtotal 100 and discount 200 in TH give a tax below 0 in
    double precision); the only clamp is the one on the total that
    [compute_total] returns. *)
Theorem tax_on_unclamped_base {F} `{Num F} (c : string) (subtotal discount : F) :
  _calculate_tax c subtotal discount
  = num_mul (num_sub subtotal discount) (tax_rate_spec c)
  ∧ PrimFloat.ltb (_calculate_tax "TH" (float_lit 100) (float_lit 200))
                  (float_lit 0) = true
  ∧ (∀ (inv : Invoice F) total warnings,
       compute_total (Some inv) = Return (total, warnings) →
       total
       = clamp_at_zero
           (num_sub
              (num_add
                 (num_add (num_add (subtotal_of inv) (shipping_of inv))
                          (fragile_fee_of inv))
                 (num_mul (num_sub (subtotal_of inv) (discount_of inv))
                          (tax_rate_spec (country inv))))
              (discount_of inv))).
Proof.
  split; [apply _calculate_tax_spec |]. split; [vm_compute; reflexivity |].
  intros inv total warnings E.
  apply compute_total_Return in E as (_ & _ & -> & _).
  unfold unclamped_total_of, tax_of. by rewrite _calculate_tax_spec.
Qed.

(** Against C3 as the specification words it: with subtotal 0.0 and the
    smallest positive double as discount, the discount exceeds the subtotal,
    yet the product underflows to -0.0, which is not below 0. *)
Lemma tax_negative_zero :
  PrimFloat.ltb (float_lit 0) tiny = true
  ∧ PrimFloat.ltb (_calculate_tax "TH" (float_lit 0) tiny) (float_lit 0)
    = false.
Proof. split; vm_compute; reflexivity. Qed.

End Tax.

(** ** Scenario 3 and the sums *)

Section Scenario.





End Scenario.

(** ** Shipping *)

Section Shipping.

Open Scope Q_scope.

(** C4: for TH, JP and US, with (threshold, fee) being (500, 60),
    (4000, 600) and (100, 15), shipping is the fee below the threshold and 0
    from the threshold on; for any other country it is 25 below 200 and 0
    from 200 on. *)
Theorem shipping_by_threshold (country : string) (subtotal : Q) :
  (∀ threshold base_fee,
     (country, (threshold, base_fee))
       ∈ [("TH", (500, 60)); ("JP", (4000, 600)); ("US", (100, 15))] →
     (subtotal < threshold → _calculate_shipping country subtotal = base_fee)
     ∧ (¬ subtotal < threshold → _calculate_shipping country subtotal = 0)
     ∧ _calculate_shipping country threshold = 0)
  ∧ (country ∉ ["TH"; "JP"; "US"] →
     (subtotal < 200 → _calculate_shipping country subtotal = 25)
     ∧ (¬ subtotal < 200 → _calculate_shipping country subtotal = 0)
     ∧ _calculate_shipping country 200 = 0).
Proof.
  split.
  - intros threshold base_fee Hin.
    assert (shipping_rates !! country = Some (threshold, base_fee)) as Hl.
    { repeat (apply elem_of_cons in Hin as [[= -> -> ->] | Hin]; [done |]).
      by apply elem_of_nil in Hin. }
    unfold _calculate_shipping. rewrite Hl.
    destruct (ltb_reflect subtotal threshold); repeat split; try done.
    all: by destruct (ltb_reflect threshold threshold) as [?%Qlt_irrefl |].
  - intros Hout.
    assert (shipping_rates (F:=Q) !! country = None) as Hl.
    { unfold shipping_rates. rewrite !not_elem_of_cons in Hout.
      destruct Hout as (? & ? & ? & _). by simplify_map_eq. }
    unfold _calculate_shipping. rewrite Hl. cbn [num_lit exact].
    destruct (ltb_reflect subtotal 200); repeat split; done.
Qed.

End Shipping.

(** ** Base discount *)

Section BaseDiscount.

Open Scope Q_scope.

(** C5: the base discount is 3% of the subtotal for "gold", 5% for
    "platinum", otherwise 20 above 3000 and 0 up to 3000; members get the
    rate alone, never the flat 20 on top: 5000 with "gold" gives 150, not
    170. *)
Theorem base_discount_first_match (membership : string) (subtotal : Q) :
  (membership = "gold" →
   _calculate_base_discount membership subtotal = subtotal * 0.03)
  ∧ (membership = "platinum" →
     _calculate_base_discount membership subtotal = subtotal * 0.05)
  ∧ (membership ≠ "gold" → membership ≠ "platinum" → 3000 < subtotal →
     _calculate_base_discount membership subtotal = 20)
  ∧ (membership ≠ "gold" → membership ≠ "platinum" → ¬ 3000 < subtotal →
     _calculate_base_discount membership subtotal = 0.0)
  ∧ _calculate_base_discount "gold" 5000 == 150
  ∧ ¬ _calculate_base_discount "gold" 5000 == 170.
Proof.
  unfold _calculate_base_discount, Py.gtb. cbn [num_lit num_mul exact].
  repeat split; try (intros ->; reflexivity); try discriminate.
  - intros Hg%String.eqb_neq Hp%String.eqb_neq Hlt. rewrite Hg, Hp.
    by destruct (ltb_reflect 3000 subtotal).
  - intros Hg%String.eqb_neq Hp%String.eqb_neq Hlt. rewrite Hg, Hp.
    by destruct (ltb_reflect 3000 subtotal).
Qed.

End BaseDiscount.

(** ** Coupons *)

Section Coupon.

Open Scope Q_scope.

Lemma strip_nonempty (c : string) :
  whitespace_only c = false → (Py.strip c =? "")%string = false.
Proof.
  intros Hw. apply String.eqb_neq. intros He%strip_empty. congruence.
Qed.

(** The coupon applier warns at most once, and only about an unknown code. *)
Lemma _apply_coupon_warnings {F} `{Num F} (coupon : option string) (subtotal : F) :
  (_apply_coupon coupon subtotal).2 = []
  ∨ (_apply_coupon coupon subtotal).2 = ["Unknown coupon"].
Proof.
  unfold _apply_coupon. destruct coupon as [c|]; [| by left].
  destruct (negb _); [| by left].
  destruct (_coupon_rate !! Py.strip c); [by left | by right].
Qed.

(** C6: an absent, empty or whitespace-only coupon gives discount 0 and no
    warning; otherwise the trimmed code is looked up as it is written in
    the table WELCOME10 -> 0.10, VIP20 -> 0.20, STUDENT5 -> 0.05: a code of
    the table gives subtotal * rate and no warning, any other code gives 0
    and the single warning "Unknown coupon". " WELCOME10 " on 1000 gives
    100 and no warning; the lower-case "welcome10" is unknown. *)
Theorem coupon_discount_and_warning (coupon : option string) (subtotal : Q) :
  (coupon = None ∨ (∃ c, coupon = Some c ∧ whitespace_only c = true) →
   _apply_coupon coupon subtotal = (0.0, []))
  ∧ (∀ c, coupon = Some c → whitespace_only c = false →
     (∀ rate,
        (Py.strip c, rate)
          ∈ [("WELCOME10", 0.10); ("VIP20", 0.20); ("STUDENT5", 0.05)] →
        _apply_coupon coupon subtotal = (subtotal * rate, []))
     ∧ (Py.strip c ∉ ["WELCOME10"; "VIP20"; "STUDENT5"] →
        _apply_coupon coupon subtotal = (0.0, ["Unknown coupon"])))
  ∧ (∃ d, _apply_coupon (Some " WELCOME10 ") 1000 = (d, []) ∧ d == 100)
  ∧ _apply_coupon (Some "welcome10") 1000 = (0.0, ["Unknown coupon"]).
Proof.
  split; [| split; [| split; [by eexists | reflexivity]]].
  - intros [-> | (c & -> & Hw)]; [reflexivity |].
    unfold _apply_coupon. apply strip_empty in Hw. by rewrite Hw.
  - intros c -> Hw. unfold _apply_coupon.
    rewrite (strip_nonempty c Hw). cbn [negb]. split.
    + intros rate Hin.
      assert (_coupon_rate !! Py.strip c = Some rate) as ->; [| done].
      repeat (apply elem_of_cons in Hin as [[= -> ->] | Hin]; [done |]).
      by apply elem_of_nil in Hin.
    + intros Hout.
      assert (_coupon_rate (F:=Q) !! Py.strip c = None) as ->; [| done].
      unfold _coupon_rate. rewrite !not_elem_of_cons in Hout.
      destruct Hout as (? & ? & ? & _). by simplify_map_eq.
Qed.

End Coupon.


(** ** Shipping, base discount and coupons in double precision

    The three statements above, read on the arithmetic of the program: the
    comparisons are those of the doubles, for which a NaN subtotal is below
    no threshold. *)

Section DoublePrecision.

Lemma shipping_by_threshold_binary64 (country : string) (subtotal : PrimFloat.float) :
  (∀ threshold base_fee,
     (country, (threshold, base_fee))
       ∈ [("TH", (float_lit 500, float_lit 60));
          ("JP", (float_lit 4000, float_lit 600));
          ("US", (float_lit 100, float_lit 15))] →
     (PrimFloat.ltb subtotal threshold = true →
      _calculate_shipping country subtotal = base_fee)
     ∧ (PrimFloat.ltb subtotal threshold = false →
        _calculate_shipping country subtotal = float_lit 0)
     ∧ _calculate_shipping country threshold = float_lit 0)
  ∧ (country ∉ ["TH"; "JP"; "US"] →
     (PrimFloat.ltb subtotal (float_lit 200) = true →
      _calculate_shipping country subtotal = float_lit 25)
     ∧ (PrimFloat.ltb subtotal (float_lit 200) = false →
        _calculate_shipping country subtotal = float_lit 0)
     ∧ _calculate_shipping country (float_lit 200) = float_lit 0).
Proof.
  split.
  - intros threshold base_fee Hin.
    assert (shipping_rates !! country = Some (threshold, base_fee)
            ∧ PrimFloat.ltb threshold threshold = false) as [Hl Hirr].
    { repeat (apply elem_of_cons in Hin as [[= -> -> ->] | Hin];
              [by split; vm_compute |]).
      by apply elem_of_nil in Hin. }
    unfold _calculate_shipping, Py.ltb. rewrite Hl. cbn [num_lt num_lit binary64].
    rewrite Hirr. repeat split; by intros ->.
  - intros Hout.
    assert (shipping_rates (F:=PrimFloat.float) !! country = None) as Hl.
    { unfold shipping_rates. rewrite !not_elem_of_cons in Hout.
      destruct Hout as (? & ? & ? & _). by simplify_map_eq. }
    unfold _calculate_shipping, Py.ltb. rewrite Hl. cbn [num_lt num_lit binary64].
    repeat split; by intros ->.
Qed.

Lemma base_discount_first_match_binary64
    (membership : string) (subtotal : PrimFloat.float) :
  (membership = "gold" →
   _calculate_base_discount membership subtotal
   = PrimFloat.mul subtotal (float_lit 0.03))
  ∧ (membership = "platinum" →
     _calculate_base_discount membership subtotal
     = PrimFloat.mul subtotal (float_lit 0.05))
  ∧ (membership ≠ "gold" → membership ≠ "platinum" →
     PrimFloat.ltb (float_lit 3000) subtotal = true →
     _calculate_base_discount membership subtotal = float_lit 20)
  ∧ (membership ≠ "gold" → membership ≠ "platinum" →
     PrimFloat.ltb (float_lit 3000) subtotal = false →
     _calculate_base_discount membership subtotal = float_lit 0.0)
  ∧ _calculate_base_discount "gold" (float_lit 5000) = float_lit 150.
Proof.
  unfold _calculate_base_discount, Py.gtb, Py.ltb.
  cbn [num_lt num_lit num_mul binary64].
  repeat split; try (intros ->; reflexivity).
  - intros Hg%String.eqb_neq Hp%String.eqb_neq Hlt. by rewrite Hg, Hp, Hlt.
  - intros Hg%String.eqb_neq Hp%String.eqb_neq Hlt. by rewrite Hg, Hp, Hlt.
Qed.

Lemma coupon_discount_and_warning_binary64
    (coupon : option string) (subtotal : PrimFloat.float) :
  (coupon = None ∨ (∃ c, coupon = Some c ∧ whitespace_only c = true) →
   _apply_coupon coupon subtotal = (float_lit 0.0, []))
  ∧ (∀ c, coupon = Some c → whitespace_only c = false →
     (∀ rate,
        (Py.strip c, rate)
          ∈ [("WELCOME10", float_lit 0.10); ("VIP20", float_lit 0.20);
             ("STUDENT5", float_lit 0.05)] →
        _apply_coupon coupon subtotal = (PrimFloat.mul subtotal rate, []))
     ∧ (Py.strip c ∉ ["WELCOME10"; "VIP20"; "STUDENT5"] →
        _apply_coupon coupon subtotal = (float_lit 0.0, ["Unknown coupon"])))
  ∧ _apply_coupon (Some " WELCOME10 ") (float_lit 1000) = (float_lit 100, []).
Proof.
  split; [| split; [| vm_compute; reflexivity]].
  - intros [-> | (c & -> & Hw)]; [reflexivity |].
    unfold _apply_coupon. apply strip_empty in Hw. by rewrite Hw.
  - intros c -> Hw. unfold _apply_coupon.
    rewrite (strip_nonempty c Hw). cbn [negb]. split.
    + intros rate Hin.
      assert (_coupon_rate !! Py.strip c = Some rate) as ->; [| done].
      repeat (apply elem_of_cons in Hin as [[= -> ->] | Hin]; [done |]).
      by apply elem_of_nil in Hin.
    + intros Hout.
      assert (_coupon_rate (F:=PrimFloat.float) !! Py.strip c = None) as ->;
        [| done].
      unfold _coupon_rate. rewrite !not_elem_of_cons in Hout.
      destruct Hout as (? & ? & ? & _). by simplify_map_eq.
Qed.

End DoublePrecision.

(** ** Validation completeness *)

Section Completeness.

Context {F : Type} `{Num F}.

(** C7: the validator's list is the problems of the header followed by the
    problems of every item, none left out; so when an item of the invoice
    has at once an empty sku, a quantity that is not positive and a category
    outside the fixed set, [compute_total] raises one [ValueError] whose
    message contains the three fragments "Item sku is missing",
    "Invalid qty for <sku>" and "Unknown category for <sku>". *)
Theorem validation_reports_all_three (inv : Invoice F) (it : LineItem F) :
  it ∈ items inv →
  sku it = "" →
  (qty it ≤ 0)%Z →
  category it ∉ ["book"; "food"; "electronics"; "other"] →
  _validate (Some inv)
  = header_problems inv ++ flat_map item_problems (items inv)
  ∧ ∃ msg,
      compute_total (Some inv) = Raise (ValueError msg)
      ∧ msg = Py.join "; " (_validate (Some inv))
      ∧ contains msg "Item sku is missing"
      ∧ contains msg ("Invalid qty for " +:+ sku it)
      ∧ contains msg ("Unknown category for " +:+ sku it).
Proof.
  intros Hit Hsku Hqty Hcat. split; [apply _validate_spec |].
  assert (∀ p, p ∈ item_problems it → p ∈ _validate (Some inv)) as Hsub.
  { intros p Hp. rewrite _validate_spec. apply elem_of_app. right.
    apply list_elem_of_In, in_flat_map. exists it.
    by rewrite <- !list_elem_of_In. }
  assert ("Item sku is missing" ∈ item_problems it
          ∧ "Invalid qty for " +:+ sku it ∈ item_problems it
          ∧ "Unknown category for " +:+ sku it ∈ item_problems it)
    as (H1 & H2 & H3).
  { unfold item_problems. rewrite !decide_True, decide_False by done.
    rewrite !elem_of_app, !list_elem_of_singleton. tauto. }
  exists (Py.join "; " (_validate (Some inv))). split.
  - apply compute_total_invalid. intros E. apply Hsub in H1.
    rewrite E in H1. by apply elem_of_nil in H1.
  - repeat split; by apply join_contains, Hsub.
Qed.

End Completeness.

Lemma validation_reports_all_three_witness :
  _validate (Some broken_invoice)
  = header_problems (F:=PrimFloat.float) broken_invoice
    ++ flat_map item_problems (items broken_invoice)
  ∧ ∃ msg,
      compute_total (F:=PrimFloat.float) (Some broken_invoice)
      = Raise (ValueError msg)
      ∧ msg = Py.join "; " (_validate (F:=PrimFloat.float) (Some broken_invoice))
      ∧ contains msg "Item sku is missing"
      ∧ contains msg ("Invalid qty for " +:+ sku (F:=PrimFloat.float) broken_item)
      ∧ contains msg
          ("Unknown category for " +:+ sku (F:=PrimFloat.float) broken_item).
Proof.
  apply (validation_reports_all_three (F:=PrimFloat.float)
           broken_invoice broken_item).
  - simpl. apply list_elem_of_here.
  - reflexivity.
  - simpl. lia.
  - simpl. rewrite !not_elem_of_cons. repeat split; try discriminate.
    apply not_elem_of_nil.
Defined.

(** ** Warnings *)

Section Warnings.

Context {F : Type} `{Num F}.

(** The coupon applier never emits the upgrade suggestion. *)
Lemma upgrade_not_from_coupon (coupon : option string) (subtotal : F) :
  "Consider membership upgrade" ∉ (_apply_coupon coupon subtotal).2.
Proof.
  destruct (_apply_coupon_warnings coupon subtotal) as [-> | ->].
  - apply not_elem_of_nil.
  - by intros [=]%list_elem_of_singleton.
Qed.

(** The condition under which [compute_total] suggests an upgrade. *)
Lemma upgrade_condition (membership : string) (subtotal : F) :
  Py.gtb subtotal (num_lit 10000)
  && negb (Py.in_tuple membership ["gold"; "platinum"]) = true
  ↔ num_lt (num_lit 10000) subtotal = true
    ∧ membership ≠ "gold" ∧ membership ≠ "platinum".
Proof.
  unfold Py.gtb, Py.ltb.
  rewrite andb_true_iff, negb_true_iff, in_tuple_false.
  rewrite !not_elem_of_cons. pose proof (not_elem_of_nil membership). tauto.
Qed.

(** C9: whenever [compute_total] returns, "Consider membership upgrade" is
    among the warnings exactly when the subtotal exceeds 10000 and the
    membership is neither "gold" nor "platinum"; the returned list is the
    coupon warnings followed by that warning when it is due, and the coupon
    warnings alone otherwise; the total is the same clamped sum in both
    cases. *)
Theorem upgrade_warning_iff
    (inv : Invoice F) (total : F) (warnings : list string) :
  compute_total (Some inv) = Return (total, warnings) →
  ("Consider membership upgrade" ∈ warnings
   ↔ num_lt (num_lit 10000) (subtotal_of inv) = true
     ∧ membership inv ≠ "gold" ∧ membership inv ≠ "platinum")
  ∧ (num_lt (num_lit 10000) (subtotal_of inv) = true
     ∧ membership inv ≠ "gold" ∧ membership inv ≠ "platinum" →
     warnings = coupon_warnings_of inv ++ ["Consider membership upgrade"])
  ∧ (¬ (num_lt (num_lit 10000) (subtotal_of inv) = true
        ∧ membership inv ≠ "gold" ∧ membership inv ≠ "platinum") →
     warnings = coupon_warnings_of inv)
  ∧ total
    = clamp_at_zero
        (num_sub (num_add (num_add (num_add (subtotal_of inv) (shipping_of inv))
                                   (fragile_fee_of inv)) (tax_of inv))
                 (discount_of inv)).
Proof.
  intros E. apply compute_total_Return in E as (_ & _ & -> & ->).
  pose proof (upgrade_condition (membership inv) (subtotal_of inv)) as Hc.
  pose proof (upgrade_not_from_coupon (coupon inv) (subtotal_of inv)) as Hcw.
  fold (coupon_warnings_of inv) in Hcw.
  destruct (_ && _).
  - repeat split; try tauto.
    intros _. apply elem_of_app. right. apply list_elem_of_here.
  - rewrite app_nil_r. repeat split; try tauto.
    all: intros Hd%Hc; discriminate.
Qed.

(** C10: whenever [compute_total] returns, the warnings are a subsequence of
    ["Unknown coupon"; "Consider membership upgrade"]: at most two entries,
    none repeated, no other string, and "Unknown coupon" first when both are
    there. *)
Theorem warnings_sublist
    (inv : Invoice F) (total : F) (warnings : list string) :
  compute_total (Some inv) = Return (total, warnings) →
  sublist warnings ["Unknown coupon"; "Consider membership upgrade"]
  ∧ length warnings ≤ 2
  ∧ NoDup warnings
  ∧ (∀ w, w ∈ warnings →
          w = "Unknown coupon" ∨ w = "Consider membership upgrade")
  ∧ ("Unknown coupon" ∈ warnings →
     "Consider membership upgrade" ∈ warnings →
     warnings = ["Unknown coupon"; "Consider membership upgrade"]).
Proof.
  intros E. apply compute_total_Return in E as (_ & _ & _ & ->).
  unfold coupon_warnings_of.
  destruct (_apply_coupon_warnings (coupon inv) (subtotal_of inv))
    as [-> | ->]; destruct (_ && _); simpl;
    (split; [repeat constructor |]); (split; [lia |]);
    (split; [by apply (bool_decide_unpack _) |]);
    (split; [apply Forall_forall | ]); by apply (bool_decide_unpack _).
Qed.

End Warnings.

Lemma upgrade_warning_iff_witness :
  ("Consider membership upgrade"
     ∈ ["Unknown coupon"; "Consider membership upgrade"]
   ↔ num_lt (num_lit 10000) (subtotal_of large_invoice) = true
     ∧ membership (F:=PrimFloat.float) large_invoice ≠ "gold"
     ∧ membership (F:=PrimFloat.float) large_invoice ≠ "platinum")
  ∧ (num_lt (num_lit 10000) (subtotal_of large_invoice) = true
     ∧ membership (F:=PrimFloat.float) large_invoice ≠ "gold"
     ∧ membership (F:=PrimFloat.float) large_invoice ≠ "platinum" →
     ["Unknown coupon"; "Consider membership upgrade"]
     = coupon_warnings_of (F:=PrimFloat.float) large_invoice
       ++ ["Consider membership upgrade"])
  ∧ (¬ (num_lt (num_lit 10000) (subtotal_of large_invoice) = true
        ∧ membership (F:=PrimFloat.float) large_invoice ≠ "gold"
        ∧ membership (F:=PrimFloat.float) large_invoice ≠ "platinum") →
     ["Unknown coupon"; "Consider membership upgrade"]
     = coupon_warnings_of (F:=PrimFloat.float) large_invoice)
  ∧ float_lit 13178
    = clamp_at_zero
        (num_sub (num_add (num_add (num_add (subtotal_of large_invoice)
                                            (shipping_of large_invoice))
                                   (fragile_fee_of large_invoice))
                          (tax_of large_invoice))
                 (discount_of large_invoice)).
Proof.
  apply (upgrade_warning_iff (F:=PrimFloat.float) large_invoice).
  vm_compute. reflexivity.
Defined.

Lemma warnings_sublist_witness :
  sublist ["Unknown coupon"; "Consider membership upgrade"]
          ["Unknown coupon"; "Consider membership upgrade"]
  ∧ length ["Unknown coupon"; "Consider membership upgrade"] ≤ 2
  ∧ NoDup ["Unknown coupon"; "Consider membership upgrade"]
  ∧ (∀ w, w ∈ ["Unknown coupon"; "Consider membership upgrade"] →
          w = "Unknown coupon" ∨ w = "Consider membership upgrade")
  ∧ ("Unknown coupon" ∈ ["Unknown coupon"; "Consider membership upgrade"] →
     "Consider membership upgrade"
       ∈ ["Unknown coupon"; "Consider membership upgrade"] →
     ["Unknown coupon"; "Consider membership upgrade"]
     = ["Unknown coupon"; "Consider membership upgrade"]).
Proof.
  apply (warnings_sublist (F:=PrimFloat.float) large_invoice (float_lit 13178)).
  vm_compute. reflexivity.
Defined.

(** ** Padding around a coupon code *)

Section Padding.

Open Scope Q_scope.

Lemma lstrip_app_ws (l t : string) :
  whitespace_only l = true → Py.lstrip (l +:+ t) = Py.lstrip t.
Proof.
  induction l as [|c l IH]; [done |]. rewrite append_cons. simpl.
  intros [-> Hl]%andb_true_iff. by apply IH.
Qed.

Lemma rstrip_app_ws (t r : string) :
  whitespace_only r = true → Py.rstrip (t +:+ r) = Py.rstrip t.
Proof.
  intros Hr. induction t as [|c t IH].
  - rewrite append_nil. by apply rstrip_empty.
  - rewrite append_cons. simpl. by rewrite IH.
Qed.

Lemma lstrip_app_kept (s r : string) :
  Py.lstrip s ≠ "" → Py.lstrip (s +:+ r) = Py.lstrip s +:+ r.
Proof.
  induction s as [|c s IH]; [done |]. rewrite append_cons. simpl.
  destruct (Py.isspace c); [apply IH | by rewrite append_cons].
Qed.

(** Whitespace around a string does not change what it trims to. *)
Lemma strip_pad (l s r : string) :
  whitespace_only l = true → whitespace_only r = true →
  Py.strip (l +:+ s +:+ r) = Py.strip s.
Proof.
  intros Hl Hr. unfold Py.strip. rewrite (lstrip_app_ws l _ Hl).
  destruct (whitespace_only s) eqn:Hs.
  - assert (whitespace_only (s +:+ r) = true) as Hsr
      by (by rewrite whitespace_only_app, Hs, Hr).
    apply lstrip_empty in Hs, Hsr. by rewrite Hs, Hsr.
  - rewrite lstrip_app_kept; [by apply rstrip_app_ws |].
    intros He%lstrip_empty. congruence.
Qed.

Lemma strip_idempotent (s : string) : Py.strip (Py.strip s) = Py.strip s.
Proof.
  destruct (strip_spec s) as (l & r & Hs & Hl & Hr & _).
  rewrite <- (strip_pad l (Py.strip s) r Hl Hr). by rewrite <- Hs.
Qed.

(** X6: whitespace around a coupon code never matters: padding a code with
    whitespace on either side, or trimming it beforehand, gives the same
    discount and the same warnings for every subtotal. *)
Theorem coupon_padding_ignored {F} `{Num F} (l c r : string) (subtotal : F) :
  whitespace_only l = true → whitespace_only r = true →
  _apply_coupon (Some (l +:+ c +:+ r)) subtotal = _apply_coupon (Some c) subtotal
  ∧ _apply_coupon (Some (Py.strip c)) subtotal = _apply_coupon (Some c) subtotal.
Proof.
  intros Hl Hr. unfold _apply_coupon.
  by rewrite strip_pad, strip_idempotent.
Qed.

Lemma coupon_padding_ignored_witness :
  _apply_coupon (Some ("  " +:+ "STUDENT5" +:+ " ")) (float_lit 80)
  = _apply_coupon (Some "STUDENT5") (float_lit 80)
  ∧ _apply_coupon (Some (Py.strip "STUDENT5")) (float_lit 80)
    = _apply_coupon (Some "STUDENT5") (float_lit 80).
Proof.
  apply (coupon_padding_ignored "  " "STUDENT5" " " (float_lit 80));
    reflexivity.
Defined.

End Padding.

(** ** Shipping and discounts by size of the order *)

Section Bounds.

Open Scope Q_scope.

Lemma shipping_rate_cases (country : string) (p : Q * Q) :
  shipping_rates !! country = Some p →
  p = (500, 60) ∨ p = (4000, 600) ∨ p = (100, 15).
Proof.
  unfold shipping_rates. cbn [num_lit exact]. intros Hp.
  destruct (decide (country = "TH")), (decide (country = "JP")),
    (decide (country = "US")); simplify_map_eq; auto.
Qed.

Lemma shipping_free_from_4000 (country : string) (subtotal : Q) :
  4000 <= subtotal → _calculate_shipping country subtotal = 0.
Proof.
  intros Hs. unfold _calculate_shipping.
  destruct (shipping_rates !! country) as [[threshold base_fee]|] eqn:E.
  - apply shipping_rate_cases in E as [[= -> ->] | [[= -> ->] | [= -> ->]]];
      match goal with
      | |- context [Py.ltb ?a ?b] => destruct (ltb_reflect a b)
      end; (done || lra).
  - cbn [num_lit exact]. destruct (ltb_reflect subtotal 200); (done || lra).
Qed.

(** X5: shipping never grows with the subtotal: for any country, a larger
    subtotal pays at most the shipping of a smaller one; the fee is never
    negative, never above 600, and is 0 from a subtotal of 4000 on. *)
Theorem shipping_antitone (country : string) (s1 s2 : Q) :
  s1 <= s2 →
  _calculate_shipping country s2 <= _calculate_shipping country s1
  ∧ 0 <= _calculate_shipping country s1
  ∧ _calculate_shipping country s1 <= 600
  ∧ (4000 <= s1 → _calculate_shipping country s1 = 0).
Proof.
  intros Hle. unfold _calculate_shipping.
  destruct (shipping_rates !! country) as [[threshold base_fee]|] eqn:E.
  - apply shipping_rate_cases in E as [[= -> ->] | [[= -> ->] | [= -> ->]]];
      cbn [num_lit exact];
      repeat match goal with
             | |- context [Py.ltb ?a ?b] => destruct (ltb_reflect a b)
             end;
      repeat split; try lra; intros; lra.
  - cbn [num_lit exact].
    destruct (ltb_reflect s1 200), (ltb_reflect s2 200);
      repeat split; try lra; intros; lra.
Qed.

Lemma shipping_antitone_witness :
  _calculate_shipping "JP" 4000 <= _calculate_shipping "JP" 3999
  ∧ 0 <= _calculate_shipping "JP" 3999
  ∧ _calculate_shipping "JP" 3999 <= 600
  ∧ (4000 <= 3999 → _calculate_shipping "JP" 3999 = 0).
Proof. apply (shipping_antitone "JP" 3999 4000). discriminate. Defined.

(** X11: for a subtotal that is not negative, no membership string gets a
    larger base discount than "platinum", and none but "platinum" gets a
    larger one than "gold": the flat volume discount of a non-member never
    beats a membership rate. *)
Theorem membership_never_worse (membership : string) (subtotal : Q) :
  0 <= subtotal →
  _calculate_base_discount membership subtotal
  <= _calculate_base_discount "platinum" subtotal
  ∧ (membership ≠ "platinum" →
     _calculate_base_discount membership subtotal
     <= _calculate_base_discount "gold" subtotal).
Proof.
  intros Hs.
  change (_calculate_base_discount "platinum" subtotal) with (subtotal * 0.05).
  change (_calculate_base_discount "gold" subtotal) with (subtotal * 0.03).
  unfold _calculate_base_discount, Py.gtb. cbn [num_lit num_mul exact].
  destruct (String.eqb_spec membership "gold") as [-> | Hg]; [split; lra |].
  destruct (String.eqb_spec membership "platinum") as [-> | Hp];
    [split; [lra | done] |].
  destruct (ltb_reflect 3000 subtotal); split; lra.
Qed.

Lemma membership_never_worse_witness :
  _calculate_base_discount "none" 5000
  <= _calculate_base_discount "platinum" 5000
  ∧ ("none" ≠ "platinum" →
     _calculate_base_discount "none" 5000
     <= _calculate_base_discount "gold" 5000).
Proof. apply (membership_never_worse "none" 5000). discriminate. Defined.

(** X7: whenever [compute_total] returns the warning "Consider membership
    upgrade", the invoice got the flat volume discount of 20 as its base
    discount and free shipping, whatever the country. *)
Theorem upgrade_means_volume_discount
    (inv : Invoice Q) (total : Q) (warnings : list string) :
  compute_total (Some inv) = Return (total, warnings) →
  "Consider membership upgrade" ∈ warnings →
  base_discount_of inv = 20 ∧ shipping_of inv = 0.
Proof.
  intros E Hw. apply compute_total_Return in E as (_ & _ & _ & ->).
  apply elem_of_app in Hw as [Hw | Hw];
    [by apply upgrade_not_from_coupon in Hw |].
  destruct (_ && _) eqn:Hc; [| by apply elem_of_nil in Hw].
  apply upgrade_condition in Hc as (Hs & Hg%String.eqb_neq & Hp%String.eqb_neq).
  apply (ltb_true 10000 (subtotal_of inv)) in Hs.
  split.
  - unfold base_discount_of, _calculate_base_discount, Py.gtb.
    rewrite Hg, Hp. cbn [num_lit exact].
    destruct (ltb_reflect 3000 (subtotal_of inv)); [done | lra].
  - apply shipping_free_from_4000. lra.
Qed.

Lemma upgrade_means_volume_discount_witness :
  base_discount_of (F:=Q) large_invoice = 20
  ∧ shipping_of (F:=Q) large_invoice = 0.
Proof.
  apply (upgrade_means_volume_discount large_invoice
           (Py.max (unclamped_total_of large_invoice) 0.0)
           ["Unknown coupon"; "Consider membership upgrade"]).
  - reflexivity.
  - apply list_elem_of_further, list_elem_of_here.
Defined.

End Bounds.

(** ** What the price does not depend on *)

Section Independence.

Context {F : Type} `{Num F}.

Lemma _subtotal_step_by_pricing (it1 it2 : LineItem F) (acc : F * F) :
  pricing it1 = pricing it2 → _subtotal_step acc it1 = _subtotal_step acc it2.
Proof.
  unfold pricing. intros [= Hp Hq Hf].
  unfold _subtotal_step. destruct acc. by rewrite Hp, Hq, Hf.
Qed.

Lemma _subtotal_loop_by_pricing (its1 its2 : list (LineItem F)) (acc : F * F) :
  map pricing its1 = map pricing its2 →
  _subtotal_loop its1 acc = _subtotal_loop its2 acc.
Proof.
  revert its2 acc. induction its1 as [|it1 its1 IH];
    intros [|it2 its2] acc; cbn [map _subtotal_loop]; try done.
  intros Hm.
  assert (pricing it1 = pricing it2 ∧ map pricing its1 = map pricing its2)
    as [Hp Hm'] by (split; congruence).
  rewrite (_subtotal_step_by_pricing it1 it2 acc Hp).
  destruct (_subtotal_step acc it2) as [acc'|e]; [| done].
  cbn [mbind outcome_bind]. by apply IH.
Qed.

(** X8: the result of [compute_total] for a valid invoice depends only on
    the country, the membership, the coupon and, item by item, the price,
    quantity and fragility: two valid invoices that agree on these get the
    same total and the same warnings, whatever their identifiers, skus and
    categories. *)
Theorem total_ignores_labels (inv1 inv2 : Invoice F) :
  _validate (Some inv1) = [] →
  _validate (Some inv2) = [] →
  country inv1 = country inv2 →
  membership inv1 = membership inv2 →
  coupon inv1 = coupon inv2 →
  map pricing (items inv1) = map pricing (items inv2) →
  compute_total (Some inv1) = compute_total (Some inv2).
Proof.
  intros Hv1 Hv2 Hc Hm Hk Hi.
  rewrite (compute_total_Some inv1 Hv1), (compute_total_Some inv2 Hv2).
  unfold unclamped_total_of, tax_of, discount_of, shipping_of,
    base_discount_of, coupon_discount_of, coupon_warnings_of, fragile_fee_of,
    subtotal_of, _calculate_subtotal_and_fragile_fee.
  by rewrite (_subtotal_loop_by_pricing _ _ _ Hi), Hc, Hm, Hk.
Qed.

(** X9: a coupon code that is not in the table only adds a warning: the
    call ends as it does for the same invoice without a coupon, with the
    same exception or with the same total, the warnings then being
    "Unknown coupon" followed by the warnings of that invoice. *)
Theorem unknown_coupon_only_warns (inv : Invoice F) (c : string) :
  coupon inv = Some c →
  whitespace_only c = false →
  _coupon_rate (F:=F) !! Py.strip c = None →
  compute_total (Some inv)
  = match compute_total (Some (without_coupon inv)) with
    | Return (total, warnings) => Return (total, "Unknown coupon" :: warnings)
    | Raise e => Raise e
    end.
Proof.
  intros Hc Hw Hl.
  assert (_validate (Some (without_coupon inv)) = _validate (Some inv)) as Hvv
    by reflexivity.
  destruct (decide (_validate (Some inv) = [])) as [Hv|Hv].
  - assert (_validate (Some (without_coupon inv)) = []) as Hv' by congruence.
    rewrite (compute_total_Some inv Hv), (compute_total_Some _ Hv').
    unfold unclamped_total_of, tax_of, discount_of, shipping_of,
      base_discount_of, coupon_discount_of, coupon_warnings_of,
      fragile_fee_of, subtotal_of.
    cbn [without_coupon country membership coupon items].
    destruct (_calculate_subtotal_and_fragile_fee (items inv)) as [r|e];
      [| reflexivity].
    cbn [mbind outcome_bind returned]. rewrite Hc. unfold _apply_coupon.
    rewrite (strip_nonempty c Hw), Hl. reflexivity.
  - rewrite (compute_total_invalid _ Hv).
    rewrite (compute_total_invalid (Some (without_coupon inv)))
      by (by rewrite Hvv).
    by rewrite Hvv.
Qed.

End Independence.

Lemma total_ignores_labels_witness :
  compute_total (F:=PrimFloat.float) (Some gold_invoice)
  = compute_total (Some gold_invoice_relabelled).
Proof.
  apply (total_ignores_labels (F:=PrimFloat.float)
           gold_invoice gold_invoice_relabelled);
    vm_compute; reflexivity.
Defined.

Lemma unknown_coupon_only_warns_witness :
  compute_total (F:=PrimFloat.float) (Some large_invoice)
  = match compute_total (Some (without_coupon large_invoice)) with
    | Return (total, warnings) => Return (total, "Unknown coupon" :: warnings)
    | Raise e => Raise e
    end.
Proof.
  apply (unknown_coupon_only_warns (F:=PrimFloat.float) large_invoice "SPRING");
    vm_compute; reflexivity.
Defined.

(** ** The scenarios of the specification, evaluated in double precision *)

Section Scenarios.

Example scenario1_us_shipping :
  _calculate_shipping "US" (float_lit 50) = float_lit 15
  ∧ _calculate_shipping "US" (float_lit 150) = float_lit 0.
Proof. split; vm_compute; reflexivity. Qed.

Example scenario2_default_shipping :
  _calculate_shipping "XX" (float_lit 199) = float_lit 25
  ∧ _calculate_shipping "XX" (float_lit 200) = float_lit 0.
Proof. split; vm_compute; reflexivity. Qed.

Example scenario4_upgrade_warning :
  compute_total (Some large_invoice)
  = Return (float_lit 13178, ["Unknown coupon"; "Consider membership upgrade"])
  ∧ (∃ total,
       compute_total
         (F:=PrimFloat.float)
         (Some {| invoice_id := "INV-4"; customer_id := "CUST-4";
                  country := "JP"; membership := "platinum";
                  coupon := None; items := items large_invoice |})
       = Return (total, [])).
Proof. split; [| eexists]; vm_compute; reflexivity. Qed.

Example scenario5_trimmed_coupon :
  _apply_coupon (Some " WELCOME10 ") (float_lit 1000) = (float_lit 100, []).
Proof. vm_compute. reflexivity. Qed.

Example membership_exclusivity :
  _calculate_base_discount "gold" (float_lit 5000) = float_lit 150.
Proof. vm_compute. reflexivity. Qed.

Example missing_invoice_message :
  compute_total (F:=PrimFloat.float) None
  = Raise (ValueError "Invoice is missing").
Proof. reflexivity. Qed.

Example broken_invoice_message :
  compute_total (F:=PrimFloat.float) (Some broken_invoice)
  = Raise (ValueError
             "Item sku is missing; Invalid qty for ; Unknown category for ").
Proof. vm_compute. reflexivity. Qed.

Example all_header_problems_message :
  compute_total
    (F:=PrimFloat.float)
    (Some {| invoice_id := ""; customer_id := ""; country := "TH";
             membership := "gold"; coupon := None; items := [] |})
  = Raise (ValueError
             "Missing invoice_id; Missing customer_id; Invoice must contain items").
Proof. vm_compute. reflexivity. Qed.

Example strip_inner_space_kept : Py.strip "  VIP 20 " = "VIP 20".
Proof. reflexivity. Qed.

(** A NaN price passes validation: [nan < 0] is false. *)
Example nan_price_accepted :
  _validate
    (Some (single_item_invoice "I" "C" "US" "none" None
             {| sku := "A"; category := "book"; unit_price := PrimFloat.nan;
                qty := 1; fragile := false |}))
  = [].
Proof. vm_compute. reflexivity. Qed.

(** The largest quantity that converts, and the smallest that does not. *)
Example largest_convertible_quantity :
  is_Some (float_of_int (2 ^ 1024 - 2 ^ 970 - 1))
  ∧ float_of_int (2 ^ 1024 - 2 ^ 970) = None.
Proof. split; [eexists |]; vm_compute; reflexivity. Qed.

(** The literals of the source are read as the nearest doubles. *)
Example literal_values :
  (float_value (float_lit 0.03) == 8646911284551352 # 288230376151711744)%Q
  ∧ (float_value (float_lit 0.10) == 3602879701896397 # 36028797018963968)%Q
  ∧ (float_value (float_lit 5.0) == 5)%Q.
Proof. repeat split. Qed.

End Scenarios.
